(** * Healthy weight range: the calculator of [App.tsx] and the usage counter
      of the server

    A shallow embedding of the two components of the repository:

    - the body of the recalculation effect of [App] (validation, Hamwi base
      weight, frame adjustment, the +/- 8% range, the BMI figures, the two
      classifications and the guard in front of the usage increment);
    - [getUsageCount] and [incrementUsageCount] of the server, over a model of
      the file [usage.json];
    - the colour of the health banner in the markup of [App] and the two API
      routes of the server, handled one request after the other.

    Numbers.  A JavaScript [number] is an IEEE double.  The calculator takes
    the finite ones as exact rationals ([Q]): literals such as [0.0254] denote
    the decimal fraction they spell, and [+], [-], [*] do not round, overflow
    or underflow.  A division by zero is modelled with its JavaScript result
    ([Infinity], [-Infinity] or [NaN]) in [Js.div].  The rounding of a double
    is relative, about one part in 10^16, and overflow and underflow lie
    beyond 10^150 and below 10^-150; the statements about the calculator
    that compare computed values are therefore made over bounded heights
    and with a margin that this rounding cannot cross, or are exact at the
    inputs they speak of.  The counter adds one to an integer-valued
    double; that addition is modelled with its rounding in
    [Js.to_double]. *)

From Stdlib Require Import QArith Lqa ZArith Lia String List Bool.
Import ListNotations.

Local Open Scope Q_scope.

(** ** JavaScript numbers *)

Module Js.

(** A [number]: a finite value or one of the three special values. *)
Inductive number : Type :=
| NaN
| NegInfinity
| Fin (q : Q)
| Infinity.

(** [x < y] on finite numbers, as a boolean. *)
Definition ltb (x y : Q) : bool := negb (Qle_bool y x).

(** [x / y] for finite [x] and [y].  Every divisor of the source that can
    be zero is the square [heightInMeters * heightInMeters], that is [+0],
    so the sign of the quotient is the sign of [x]. *)
Definition div (x y : Q) : number :=
  if Qeq_bool y 0 then
    match x ?= 0 with
    | Lt => NegInfinity
    | Eq => NaN
    | Gt => Infinity
    end
  else Fin (x / y).

(** The four comparisons of a [number] with a finite literal; each is
    [false] on [NaN]. *)
Definition lt (a : number) (b : Q) : bool :=
  match a with
  | NaN => false
  | NegInfinity => true
  | Fin q => ltb q b
  | Infinity => false
  end.

Definition le (a : number) (b : Q) : bool :=
  match a with
  | NaN => false
  | NegInfinity => true
  | Fin q => Qle_bool q b
  | Infinity => false
  end.

Definition gt (a : number) (b : Q) : bool :=
  match a with
  | NaN => false
  | NegInfinity => false
  | Fin q => ltb b q
  | Infinity => true
  end.

Definition ge (a : number) (b : Q) : bool :=
  match a with
  | NaN => false
  | NegInfinity => false
  | Fin q => Qle_bool b q
  | Infinity => true
  end.

(** A positive real: finite and above zero. *)
Definition positive (a : number) : Prop :=
  exists q, a = Fin q /\ 0 < q.

(** 2^53: up to it, in absolute value, every integer is a double. *)
Definition two_53 : Z := 9007199254740992.

(** The double nearest to the integer [n], itself an integer: [n] when
    its absolute value is at most 2^53, else [n] rounded to 53 significant
    bits, a tie going to the even significand.  (Adding one to a double
    cannot overflow: the largest double plus one rounds to itself.) *)
Definition to_double (n : Z) : Z :=
  let a := Z.abs n in
  if (a <=? two_53)%Z then n
  else
    let e := (Z.log2 a - 52)%Z in
    let q := (a / 2 ^ e)%Z in
    let r := (a mod 2 ^ e)%Z in
    let half := (2 ^ (e - 1))%Z in
    let q' := if (r <? half)%Z then q
              else if (half <? r)%Z then (q + 1)%Z
              else if Z.even q then q else (q + 1)%Z in
    (Z.sgn n * (q' * 2 ^ e))%Z.

End Js.

(** ** The weight calculator (the recalculation effect of [App]) *)

Module WeightCalculator.

Inductive Sex : Type := male | female.

Inductive BoneStructure : Type := small | medium | large.

Inductive HealthStatus : Type := within | partially_outside | fully_outside.

(** The five state variables the effect depends on.  The three numbers come
    from number inputs and are finite. *)
Record Input : Type := {
  sex : Sex;
  age : Q;
  heightFeet : Q;
  heightInches : Q;
  boneStructure : BoneStructure
}.

Record WeightResult : Type := {
  baseHamwiWeightLbs : Q;
  adjustedFrameWeightLbs : Q;
  minHealthyWeightLbs : Q;
  maxHealthyWeightLbs : Q;
  bmiAtMinWeight : Js.number;
  bmiAtMaxWeight : Js.number;
  bmiHealthyMinLbs : Q;
  bmiHealthyMaxLbs : Q;
  healthStatus : HealthStatus;
  healthStatusLabel : string;
  bmiClassification : string
}.

(** [age <= 0 || heightFeet < 0 || heightInches < 0 || heightInches > 11] *)
Definition invalid (i : Input) : bool :=
  Qle_bool (age i) 0
  || Js.ltb (heightFeet i) 0
  || Js.ltb (heightInches i) 0
  || Js.ltb 11 (heightInches i).

Definition totalInches (i : Input) : Q :=
  heightFeet i * 12 + heightInches i.

Definition heightInMeters (i : Input) : Q :=
  totalInches i * 0.0254.

Definition baseHeightInches : Q := 60.

(** The two branches of the Hamwi formula, below and from 5 feet. *)
Definition hamwiBelow (s : Sex) (inches : Q) : Q :=
  match s with
  | male => 106 - (baseHeightInches - inches) * 6
  | female => 100 - (baseHeightInches - inches) * 5
  end.

Definition hamwiFrom (s : Sex) (inches : Q) : Q :=
  match s with
  | male => 106 + (inches - baseHeightInches) * 6
  | female => 100 + (inches - baseHeightInches) * 5
  end.

Definition hamwi (s : Sex) (inches : Q) : Q :=
  if Js.ltb inches baseHeightInches then hamwiBelow s inches
  else hamwiFrom s inches.

(** [small] scales by 0.93, [large] by 1.07, [medium] leaves the weight. *)
Definition frameAdjust (b : BoneStructure) (lbs : Q) : Q :=
  match b with
  | small => lbs * 0.93
  | medium => lbs
  | large => lbs * 1.07
  end.

Definition rangePercentage : Q := 0.08.

(** The chain of tests on [bmiAtMidpoint]. *)
Definition classify (bmi : Js.number) : string :=
  if Js.lt bmi 18.5 then "Underweight"
  else if Js.ge bmi 18.5 && Js.le bmi 24.9 then "Normal"
  else if Js.ge bmi 25 && Js.le bmi 29.9 then "Overweight"
  else "Obese".

(** The two tests that set [healthStatus] and its label. *)
Definition status (bmiMin bmiMax : Js.number) : HealthStatus * string :=
  if Js.gt bmiMin 24.9 || Js.lt bmiMax 18.5 then
    (fully_outside, "Outside Standard BMI Range"%string)
  else if Js.lt bmiMin 18.5 || Js.gt bmiMax 24.9 then
    (partially_outside, "Partially Outside Standard BMI Range"%string)
  else (within, "Within Standard BMI Range"%string).

(** The BMI at the midpoint of the range, as the effect computes it. *)
Definition midpointBmi (minLbs maxLbs heightM : Q) : Js.number :=
  let midpointWeightLbs := (minLbs + maxLbs) / 2 in
  let midpointWeightKg := midpointWeightLbs / 2.20462 in
  Js.div midpointWeightKg (heightM * heightM).

(** The calculation the effect runs once the guard has let the input
    through: the object handed to [setRecommendedWeight]. *)
Definition calculate (i : Input) : WeightResult :=
  let inches := totalInches i in
  let heightM := heightInMeters i in
  let base := hamwi (sex i) inches in
  let adjusted := frameAdjust (boneStructure i) base in
  let minLbs := adjusted * (1 - rangePercentage) in
  let maxLbs := adjusted * (1 + rangePercentage) in
  let bmiMin := Js.div minLbs (heightM * heightM) in
  let bmiMax := Js.div maxLbs (heightM * heightM) in
  let bmiMinLbs := 18.5 * (heightM * heightM) * 2.20462 in
  let bmiMaxLbs := 24.9 * (heightM * heightM) * 2.20462 in
  let bmiAtMidpoint := midpointBmi minLbs maxLbs heightM in
  let st := status bmiMin bmiMax in
  {| baseHamwiWeightLbs := base;
     adjustedFrameWeightLbs := adjusted;
     minHealthyWeightLbs := minLbs;
     maxHealthyWeightLbs := maxLbs;
     bmiAtMinWeight := bmiMin;
     bmiAtMaxWeight := bmiMax;
     bmiHealthyMinLbs := bmiMinLbs;
     bmiHealthyMaxLbs := bmiMaxLbs;
     healthStatus := fst st;
     healthStatusLabel := snd st;
     bmiClassification := classify bmiAtMidpoint |}.

(** What one run of the effect does: the value handed to
    [setRecommendedWeight] ([None] for [null]) and whether [incrementUsage]
    is called. *)
Record Outcome : Type := {
  recommendedWeight : option WeightResult;
  incrementUsage : bool
}.

Definition effect (i : Input) : Outcome :=
  if invalid i then
    {| recommendedWeight := None; incrementUsage := false |}
  else
    {| recommendedWeight := Some (calculate i);
       incrementUsage :=
         Qle_bool 18 (age i)
         && Js.ltb 0 (heightFeet i)
         && Qle_bool 0 (heightInches i) |}.

(** The calculation alone: a result, or none for an input out of domain. *)
Definition compute (i : Input) : option WeightResult :=
  recommendedWeight (effect i).

(** The domain of the calculation: [ageYears > 0], [heightFeet >= 0],
    [0 <= heightInches <= 11]. *)
Definition valid (i : Input) : Prop :=
  0 < age i /\ 0 <= heightFeet i /\ 0 <= heightInches i <= 11.

End WeightCalculator.

(** ** The usage counter (the server's [getUsageCount] and
       [incrementUsageCount]) *)

Module UsageCounter.

(** What a [catch] clause can receive: an error of the file system with its
    [code], or one of the two errors raised while the text is decoded. *)
Inductive Error : Type :=
| ErrnoException (code : string)
| SyntaxError
| TypeError.

(** The value [JSON.parse] returns, as far as [usage.count] looks at it:
    [null], or a value whose [count] member is absent ([None], the member
    access gives [undefined]) or an integer, given by its value as a double.
    A [count] member of another kind (a string, a fraction, an object) has
    no term here: the model covers the files the server writes, the files
    it cannot decode and the files without a count, and no statement below
    speaks of a file with such a member. *)
Inductive Json : Type :=
| JNull
| JValue (count : option Z).

(** The text of the file, by what [JSON.parse] makes of it. *)
Inductive FileText : Type :=
| Malformed
| Text (usage : Json).

(** [usage.json] as [fs.readFile] and [fs.writeFile] see it.  For
    [Failing] and [Holding] a write succeeds: the read fails with an error
    code (["ENOENT"] when the file does not exist) or yields the text.
    [Protected] is a file whose writes fail with the error [code], for
    instance a directory (read and write fail with ["EISDIR"]), a read-only
    file, or a missing file in a directory that cannot be written; its read
    fails with an error code or yields the text as [reading] says. *)
Inductive File : Type :=
| Failing (code : string)
| Holding (data : FileText)
| Protected (reading : string + FileText) (code : string).

Definition ENOENT : string := "ENOENT".

(** The file of the server together with the lines sent to
    [console.error]. *)
Record World : Type := {
  usageFile : File;
  console : list string
}.

(** Computations that read and write the world and may throw.  The
    [await]s of the source run one after the other, so an [async] function
    is such a computation. *)
Definition M (A : Type) : Type := World -> World * (Error + A).

Definition ret {A} (a : A) : M A := fun w => (w, inr a).

Definition throw {A} (e : Error) : M A := fun w => (w, inl e).

Definition bind {A B} (m : M A) (k : A -> M B) : M B :=
  fun w =>
    match m w with
    | (w', inl e) => (w', inl e)
    | (w', inr a) => k a w'
    end.

Definition tryCatch {A} (body : M A) (handler : Error -> M A) : M A :=
  fun w =>
    match body w with
    | (w', inl e) => handler e w'
    | (w', inr a) => (w', inr a)
    end.

Notation "x <- m ;; k" := (bind m (fun x => k))
  (at level 61, m at next level, right associativity).
Notation "m ;; k" := (bind m (fun _ => k))
  (at level 61, right associativity).

Definition readFile : M FileText :=
  fun w =>
    match usageFile w with
    | Failing code => (w, inl (ErrnoException code))
    | Holding data => (w, inr data)
    | Protected (inl code) _ => (w, inl (ErrnoException code))
    | Protected (inr data) _ => (w, inr data)
    end.

(** [fs.writeFile] replaces the file, or throws the error of a protected
    file and leaves it as it was. *)
Definition writeFile (data : FileText) : M unit :=
  fun w =>
    match usageFile w with
    | Protected _ code => (w, inl (ErrnoException code))
    | _ => ({| usageFile := Holding data; console := console w |}, inr tt)
    end.

Definition console_error (line : string) : M unit :=
  fun w => ({| usageFile := usageFile w; console := console w ++ [line] |},
            inr tt).

Definition JSON_parse (data : FileText) : M Json :=
  match data with
  | Malformed => throw SyntaxError
  | Text usage => ret usage
  end.

(** [JSON.stringify({ count })] *)
Definition JSON_stringify (count : Z) : FileText :=
  Text (JValue (Some count)).

(** [usage.count]: a [TypeError] on [null]. *)
Definition get_count (usage : Json) : M (option Z) :=
  match usage with
  | JNull => throw TypeError
  | JValue c => ret c
  end.

(** [v || 0]: [undefined] and [0] are falsy. *)
Definition or_zero (v : option Z) : Z :=
  match v with
  | Some c => if (c =? 0)%Z then 0%Z else c
  | None => 0%Z
  end.

(** [(error as NodeJS.ErrnoException).code === 'ENOENT'] *)
Definition is_ENOENT (error : Error) : bool :=
  match error with
  | ErrnoException code => String.eqb code ENOENT
  | _ => false
  end.

(** The [try] block of [getUsageCount]. *)
Definition readCount : M Z :=
  data <- readFile ;;
  usage <- JSON_parse data ;;
  c <- get_count usage ;;
  ret (or_zero c).

Definition getUsageCount : M Z :=
  tryCatch readCount
    (fun error =>
       if is_ENOENT error then
         writeFile (JSON_stringify 0) ;;
         ret 0%Z
       else
         console_error "Error reading usage file:" ;;
         ret 0%Z).

(** [count++] adds one to a double. *)
Definition incrementUsageCount : M Z :=
  count <- getUsageCount ;;
  let count := Js.to_double (count + 1) in
  writeFile (JSON_stringify count) ;;
  ret count.

(** [n] calls of [incrementUsageCount], one after the other, with the
    values they return. *)
Fixpoint incrementTimes (n : nat) : M (list Z) :=
  match n with
  | O => ret []
  | S n' =>
      c <- incrementUsageCount ;;
      cs <- incrementTimes n' ;;
      ret (c :: cs)
  end.

(** A file that holds the record [{ count: c }]. *)
Definition holds (c : Z) : File := Holding (JSON_stringify c).

(** The handlers of [GET /api/usage] and [POST /api/usage/increment]
    answer with the count in a record; here the count alone. *)
Definition read : M Z := getUsageCount.

Definition incrementAndRead : M Z := incrementUsageCount.

End UsageCounter.

(** ** The health indicator of the result panel *)

Module View.

Import WeightCalculator.

(** The colour classes of the banner that shows [healthStatusLabel]: the
    nested conditional on [recommendedWeight.healthStatus] in the markup. *)
Definition indicatorClass (h : HealthStatus) : string :=
  match h with
  | within => "bg-green-100 text-green-800 border border-green-200"
  | partially_outside => "bg-yellow-100 text-yellow-800 border border-yellow-200"
  | fully_outside => "bg-red-100 text-red-800 border border-red-200"
  end.

End View.

(** ** The two routes of the server *)

Module Server.

Import UsageCounter.

(** A request to one of the two API routes. *)
Inductive Request : Type :=
| GetUsage              (* GET /api/usage *)
| PostUsageIncrement.   (* POST /api/usage/increment *)

(** The handler of a route; the answer [{ count }] is given by its count. *)
Definition handle (r : Request) : M Z :=
  match r with
  | GetUsage => getUsageCount
  | PostUsageIncrement => incrementUsageCount
  end.

(** Requests handled one after the other, with the counts answered. *)
Fixpoint serve (rs : list Request) : M (list Z) :=
  match rs with
  | [] => ret []
  | r :: rs' =>
      c <- handle r ;;
      cs <- serve rs' ;;
      ret (c :: cs)
  end.

End Server.

(** ** Vocabulary of the statements *)

Import WeightCalculator.

(** The weight at the reference height of 60 inches and the pounds per inch. *)
Definition baseAt60 (s : Sex) : Q :=
  match s with male => 106 | female => 100 end.

Definition perInch (s : Sex) : Q :=
  match s with male => 6 | female => 5 end.

(** The two disjunctions the effect tests, on the BMI bounds of a result. *)
Definition no_overlap (r : WeightResult) : Prop :=
  Js.gt (bmiAtMinWeight r) 24.9 = true \/ Js.lt (bmiAtMaxWeight r) 18.5 = true.

Definition extends_beyond (r : WeightResult) : Prop :=
  Js.lt (bmiAtMinWeight r) 18.5 = true \/ Js.gt (bmiAtMaxWeight r) 24.9 = true.

(** The four weights and the two BMI bounds of a result are positive reals. *)
Definition all_positive (r : WeightResult) : Prop :=
  0 < baseHamwiWeightLbs r /\ 0 < adjustedFrameWeightLbs r
  /\ 0 < minHealthyWeightLbs r /\ 0 < maxHealthyWeightLbs r
  /\ Js.positive (bmiAtMinWeight r) /\ Js.positive (bmiAtMaxWeight r).

(** The heights at which the Hamwi line is above zero: more than 42 1/3
    inches for male, more than 40 inches for female. *)
Definition above_hamwi_zero (i : Input) : Prop :=
  match sex i with
  | male => 254 < 6 * totalInches i
  | female => 40 < totalInches i
  end.

(** The heights clear of the zero of the Hamwi line and of the overflow of
    a double: at least 43 inches for male and 41 for female, a margin above
    the zero that rounding does not cross, and at most 10000 inches. *)
Definition clear_of_hamwi_zero (i : Input) : Prop :=
  match sex i with
  | male => 43 <= totalInches i
  | female => 41 <= totalInches i
  end
  /\ totalInches i <= 10000.

(** The heights with a margin below the zero of the Hamwi line: at most 42
    inches for male, at most 39 for female. *)
Definition short_of_hamwi_zero (i : Input) : Prop :=
  match sex i with
  | male => totalInches i <= 42
  | female => totalInches i <= 39
  end.

(** The BMI of a weight in pounds in the words of the specification: the
    weight converted to kilograms with [1 lb = 1/2.20462 kg], divided by the
    squared height in meters.  The midpoint BMI of the source is computed
    this way. *)
Definition spec_bmi (lbs heightM : Q) : Js.number :=
  Js.div (lbs / 2.20462) (heightM * heightM).

(** The midpoint BMI of a result for an input. *)
Definition bmiAtMidpoint (i : Input) (r : WeightResult) : Js.number :=
  midpointBmi (minHealthyWeightLbs r) (maxHealthyWeightLbs r) (heightInMeters i).

(** The state [App] starts in. *)
Definition initial_input : Input :=
  {| sex := male; age := 25; heightFeet := 5; heightInches := 7;
     boneStructure := medium |}.

(** A man of 7 feet, medium frame. *)
Definition seven_feet : Input :=
  {| sex := male; age := 25; heightFeet := 7; heightInches := 0;
     boneStructure := medium |}.

(** Both height fields at zero. *)
Definition zero_height : Input :=
  {| sex := male; age := 25; heightFeet := 0; heightInches := 0;
     boneStructure := medium |}.

(** An adult with 0 feet and 7 inches entered. *)
Definition inches_only : Input :=
  {| sex := male; age := 25; heightFeet := 0; heightInches := 7;
     boneStructure := medium |}.

(** A woman of 5 ft 4 in, large frame. *)
Definition five_four : Input :=
  {| sex := female; age := 30; heightFeet := 5; heightInches := 4;
     boneStructure := large |}.

(** Two men either side of 5 feet: 4 ft 11 in and 5 ft 1 in. *)
Definition four_eleven : Input :=
  {| sex := male; age := 40; heightFeet := 4; heightInches := 11;
     boneStructure := small |}.

Definition five_one : Input :=
  {| sex := male; age := 40; heightFeet := 5; heightInches := 1;
     boneStructure := small |}.

Import UsageCounter.

(** A world with only the file replaced. *)
Definition with_file (f : File) (w : World) : World :=
  {| usageFile := f; console := console w |}.

(** What a read of the file gives: an error code or the text. *)
Definition contents (f : File) : string + FileText :=
  match f with
  | Failing code => inl code
  | Holding data => inr data
  | Protected reading _ => reading
  end.

(** What the [try] block of [getUsageCount] makes of a file: the error it
    throws or the count it returns. *)
Definition decoded (f : File) : Error + Z :=
  match contents f with
  | inl code => inl (ErrnoException code)
  | inr Malformed => inl SyntaxError
  | inr (Text JNull) => inl TypeError
  | inr (Text (JValue c)) => inr (or_zero c)
  end.


(** A file that holds 2^53 and no console output yet. *)
Definition full_world : World :=
  {| usageFile := holds Js.two_53; console := [] |}.

(** [usage.json] is a directory: reads and writes fail with ["EISDIR"]. *)
Definition directory_world : World :=
  {| usageFile := Protected (inl "EISDIR"%string) "EISDIR"; console := [] |}.

(** The counts [c + 1], ..., [c + n]. *)
Definition counts_after (c : Z) (n : nat) : list Z :=
  map (fun k => (c + Z.of_nat k)%Z) (seq 1 n).

(** A file with malformed text and no console output yet. *)
Definition malformed_world : World :=
  {| usageFile := Holding Malformed; console := [] |}.

(** No file and no console output yet. *)
Definition fresh_world : World :=
  {| usageFile := Failing ENOENT; console := [] |}.

Import View Server.

(** The file holds a record with an integer [count]. *)
Definition well_formed (f : File) : Prop := exists c : Z, f = holds c.

(** The number of increment requests in a list of requests. *)
Definition posts (rs : list Request) : nat :=
  List.length (filter (fun r => match r with
                                | PostUsageIncrement => true
                                | GetUsage => false
                                end) rs).

(** The counts answered to [rs] when the count is [c] before the first
    request: every increment adds one, every read repeats the count. *)
Fixpoint answers (c : Z) (rs : list Request) : list Z :=
  match rs with
  | [] => []
  | GetUsage :: rs' => c :: answers c rs'
  | PostUsageIncrement :: rs' => (c + 1)%Z :: answers (c + 1) rs'
  end.

(** A list of integers that never goes down. *)
Fixpoint nondecreasing_from (c : Z) (l : list Z) : Prop :=
  match l with
  | [] => True
  | x :: l' => (c <= x)%Z /\ nondecreasing_from x l'
  end.

(** A read of the file fails for a reason other than its absence. *)
Definition read_fails_otherwise (w : World) : Prop :=
  exists (e : Error) (w' : World),
    readCount w = (w', inl e) /\ e <> ErrnoException ENOENT.

(** An unreadable file: the read fails with a permission error. *)
Definition locked_world : World :=
  {| usageFile := Failing "EACCES"; console := [] |}.

(** The same height with the three frames. *)
Definition with_frame (b : BoneStructure) (i : Input) : Input :=
  {| sex := sex i; age := age i; heightFeet := heightFeet i;
     heightInches := heightInches i; boneStructure := b |}.

(** ** The scenarios of the specification *)

Example scenario_male_5_7 :
  match compute {| sex := male; age := 25; heightFeet := 5; heightInches := 7;
                   boneStructure := medium |} with
  | Some r => baseHamwiWeightLbs r == 148 /\ adjustedFrameWeightLbs r == 148
              /\ minHealthyWeightLbs r == 136.16 /\ maxHealthyWeightLbs r == 159.84
  | None => False
  end.
Proof. vm_compute. repeat split. Qed.

Example scenario_female_5_0 :
  match compute {| sex := female; age := 30; heightFeet := 5; heightInches := 0;
                   boneStructure := small |} with
  | Some r => baseHamwiWeightLbs r == 100 /\ adjustedFrameWeightLbs r == 93.0
              /\ minHealthyWeightLbs r == 85.56 /\ maxHealthyWeightLbs r == 100.44
  | None => False
  end.
Proof. vm_compute. repeat split. Qed.

Example scenario_age_zero (s : Sex) (f n : Q) (b : BoneStructure) :
  compute {| sex := s; age := 0; heightFeet := f; heightInches := n;
             boneStructure := b |} = None.
Proof. reflexivity. Qed.

(** ** Comparisons as propositions *)

Lemma ltb_lt (x y : Q) : Js.ltb x y = true <-> x < y.
Proof.
  unfold Js.ltb. rewrite negb_true_iff.
  split; intro H.
  - apply Qnot_le_lt. intro Hle.
    apply Qle_bool_iff in Hle. congruence.
  - destruct (Qle_bool y x) eqn:E; [|reflexivity].
    apply Qle_bool_iff in E. exfalso. apply (Qlt_not_le _ _ H E).
Qed.

Lemma ltb_ge (x y : Q) : Js.ltb x y = false <-> y <= x.
Proof.
  unfold Js.ltb. rewrite negb_false_iff. apply Qle_bool_iff.
Qed.

Lemma leb_gt (x y : Q) : Qle_bool x y = false <-> y < x.
Proof.
  rewrite <- ltb_lt. unfold Js.ltb.
  destruct (Qle_bool x y); simpl; split; congruence.
Qed.

Lemma invalid_true (i : Input) :
  invalid i = true <->
  age i <= 0 \/ heightFeet i < 0 \/ heightInches i < 0 \/ 11 < heightInches i.
Proof.
  unfold invalid.
  rewrite !orb_true_iff, !ltb_lt, Qle_bool_iff. tauto.
Qed.

Lemma invalid_false (i : Input) : invalid i = false <-> valid i.
Proof.
  unfold invalid, valid.
  rewrite !orb_false_iff, !ltb_ge, leb_gt. tauto.
Qed.

(** A valid input gets the record of [calculate]. *)
Lemma compute_valid (i : Input) : valid i -> compute i = Some (calculate i).
Proof.
  intro Hv. apply invalid_false in Hv.
  unfold compute, effect. rewrite Hv. reflexivity.
Qed.

(** ** Validation *)

(** C5: [compute] gives no result exactly for the inputs out of domain
    ([ageYears <= 0], [heightFeet < 0] or [heightInches] outside [0, 11]),
    and a complete [WeightResult] exactly for the inputs in the domain. *)
Theorem compute_none_iff_out_of_domain (i : Input) :
  (compute i = None <->
   age i <= 0 \/ heightFeet i < 0 \/ heightInches i < 0 \/ 11 < heightInches i)
  /\ ((exists r, compute i = Some r) <->
      0 < age i /\ 0 <= heightFeet i /\ 0 <= heightInches i <= 11).
Proof.
  split.
  - rewrite <- invalid_true.
    unfold compute, effect.
    destruct (invalid i); simpl; split; congruence.
  - fold (valid i). rewrite <- invalid_false.
    unfold compute, effect.
    destruct (invalid i); simpl; split.
    + intros [r Hr]. discriminate.
    + discriminate.
    + reflexivity.
    + intros _. eexists. reflexivity.
Qed.

(** ** Health status *)

Lemma status_cases (a b : Js.number) :
  (fst (status a b) = fully_outside <->
   Js.gt a 24.9 = true \/ Js.lt b 18.5 = true)
  /\ (fst (status a b) = partially_outside <->
      ~ (Js.gt a 24.9 = true \/ Js.lt b 18.5 = true)
      /\ (Js.lt a 18.5 = true \/ Js.gt b 24.9 = true))
  /\ (fst (status a b) = within <->
      ~ (Js.gt a 24.9 = true \/ Js.lt b 18.5 = true)
      /\ ~ (Js.lt a 18.5 = true \/ Js.gt b 24.9 = true)).
Proof.
  unfold status.
  destruct (Js.gt a 24.9) eqn:Ea, (Js.lt b 18.5) eqn:Eb,
           (Js.lt a 18.5) eqn:Ec, (Js.gt b 24.9) eqn:Ed;
    simpl; intuition congruence.
Qed.

(** C6: for a valid input the result's [healthStatus] is [fully_outside]
    exactly when [bmiAtMinWeight > 24.9] or [bmiAtMaxWeight < 18.5];
    otherwise [partially_outside] exactly when [bmiAtMinWeight < 18.5] or
    [bmiAtMaxWeight > 24.9]; otherwise [within]. *)
Theorem health_status_rule (i : Input) :
  valid i ->
  exists r,
    compute i = Some r
    /\ (healthStatus r = fully_outside <-> no_overlap r)
    /\ (healthStatus r = partially_outside <->
        ~ no_overlap r /\ extends_beyond r)
    /\ (healthStatus r = within <-> ~ no_overlap r /\ ~ extends_beyond r).
Proof.
  intro Hv. eexists. split.
  - apply compute_valid, Hv.
  - unfold no_overlap, extends_beyond, calculate.
    cbn [healthStatus bmiAtMinWeight bmiAtMaxWeight].
    apply status_cases.
Qed.

Lemma health_status_rule_witness :
  exists r,
    compute five_four = Some r
    /\ (healthStatus r = fully_outside <-> no_overlap r)
    /\ (healthStatus r = partially_outside <->
        ~ no_overlap r /\ extends_beyond r)
    /\ (healthStatus r = within <-> ~ no_overlap r /\ ~ extends_beyond r).
Proof.
  apply (health_status_rule five_four).
  unfold valid, five_four; simpl. repeat split; vm_compute; congruence.
Defined.

(** ** The Hamwi base weight *)

Section Hamwi.

Variable s : Sex.

(** Both branches are the same line through [(60, baseAt60 s)]. *)
Lemma hamwi_line (t : Q) :
  hamwi s t == baseAt60 s + (t - 60) * perInch s.
Proof.
  unfold hamwi, hamwiBelow, hamwiFrom, baseHeightInches.
  destruct (Js.ltb t 60), s; simpl; ring.
Qed.

Lemma hamwi_monotone (t1 t2 : Q) :
  t1 <= t2 -> hamwi s t1 <= hamwi s t2.
Proof.
  intro H. rewrite !hamwi_line.
  destruct s; simpl; lra.
Qed.

End Hamwi.

(** C7: with the sex fixed (and whatever the frame), [baseHamwiWeightLbs]
    does not decrease when [totalInches] grows, over all valid inputs and
    across the branch split; at [totalInches = 60] both branches give 106
    for male and 100 for female. *)
Theorem base_hamwi_nondecreasing :
  (forall i1 i2 : Input,
      valid i1 -> valid i2 ->
      sex i1 = sex i2 ->
      totalInches i1 <= totalInches i2 ->
      exists r1 r2,
        compute i1 = Some r1 /\ compute i2 = Some r2
        /\ baseHamwiWeightLbs r1 <= baseHamwiWeightLbs r2)
  /\ (forall (s : Sex) (t : Q),
         t == 60 ->
         hamwiBelow s t == baseAt60 s /\ hamwiFrom s t == baseAt60 s
         /\ hamwi s t == baseAt60 s).
Proof.
  split.
  - intros i1 i2 H1 H2 Hs Ht.
    do 2 eexists. split; [apply compute_valid, H1|].
    split; [apply compute_valid, H2|].
    unfold calculate; cbn [baseHamwiWeightLbs].
    rewrite Hs. apply hamwi_monotone, Ht.
  - intros s t Ht. repeat split.
    + unfold hamwiBelow, baseHeightInches. destruct s; simpl; rewrite Ht; ring.
    + unfold hamwiFrom, baseHeightInches. destruct s; simpl; rewrite Ht; ring.
    + rewrite hamwi_line, Ht. ring.
Qed.

Lemma base_hamwi_nondecreasing_witness :
  (exists r1 r2,
      compute four_eleven = Some r1 /\ compute five_one = Some r2
      /\ baseHamwiWeightLbs r1 <= baseHamwiWeightLbs r2)
  /\ hamwiBelow female 60 == baseAt60 female
  /\ hamwiFrom female 60 == baseAt60 female
  /\ hamwi female 60 == baseAt60 female.
Proof.
  split.
  - apply (proj1 base_hamwi_nondecreasing four_eleven five_one).
    + unfold valid, four_eleven; simpl. repeat split; vm_compute; congruence.
    + unfold valid, five_one; simpl. repeat split; vm_compute; congruence.
    + reflexivity.
    + vm_compute. congruence.
  - apply (proj2 base_hamwi_nondecreasing female 60). reflexivity.
Defined.

(** ** Division and the BMI figures *)

Lemma div_nonzero (x y : Q) : ~ y == 0 -> Js.div x y = Js.Fin (x / y).
Proof.
  intro Hy. unfold Js.div.
  destruct (Qeq_bool y 0) eqn:E; [|reflexivity].
  apply Qeq_bool_iff in E. contradiction.
Qed.

Lemma div_positive (x y : Q) : 0 < x -> 0 < y -> Js.positive (Js.div x y).
Proof.
  intros Hx Hy. exists (x / y). split.
  - apply div_nonzero. lra.
  - apply Qlt_shift_div_l; lra.
Qed.

Lemma height_squared_positive (i : Input) :
  0 < totalInches i -> 0 < heightInMeters i * heightInMeters i.
Proof.
  intro Ht. unfold heightInMeters.
  assert (H : 0 < totalInches i * 0.0254) by lra.
  nra.
Qed.

(** What the effect stores as BMI bounds once the height is not zero: the
    weights in pounds over the squared height, which is 2.20462 times the
    BMI of the weights converted to kilograms. *)
Lemma bmi_bounds_of_pounds (i : Input) :
  valid i -> 0 < totalInches i ->
  exists r lo hi lo_kg hi_kg,
    compute i = Some r
    /\ bmiAtMinWeight r = Js.Fin lo /\ bmiAtMaxWeight r = Js.Fin hi
    /\ spec_bmi (minHealthyWeightLbs r) (heightInMeters i) = Js.Fin lo_kg
    /\ spec_bmi (maxHealthyWeightLbs r) (heightInMeters i) = Js.Fin hi_kg
    /\ lo == minHealthyWeightLbs r / (heightInMeters i * heightInMeters i)
    /\ hi == maxHealthyWeightLbs r / (heightInMeters i * heightInMeters i)
    /\ lo == 2.20462 * lo_kg /\ hi == 2.20462 * hi_kg.
Proof.
  intros Hv Ht.
  pose proof (height_squared_positive i Ht) as Hh.
  assert (Hne : ~ heightInMeters i * heightInMeters i == 0) by lra.
  do 5 eexists. split; [apply compute_valid, Hv|].
  unfold calculate, spec_bmi.
  cbn [bmiAtMinWeight bmiAtMaxWeight minHealthyWeightLbs maxHealthyWeightLbs].
  repeat (split; [apply div_nonzero, Hne|]).
  assert (Hm : ~ heightInMeters i == 0) by (intro E; rewrite E in Hh; lra).
  repeat split; try reflexivity; field; exact Hm.
Qed.

(** C2: at the initial state of [App] (male, 25, 5 ft 7 in, medium) the
    stored [bmiAtMinWeight] and [bmiAtMaxWeight] are the pounds over the
    squared height, 2.20462 times the BMI of the weight converted to
    kilograms, and so differ from it. *)
Theorem bmi_bounds_skip_kg_conversion :
  valid initial_input
  /\ exists r lo hi lo_kg hi_kg,
      compute initial_input = Some r
      /\ bmiAtMinWeight r = Js.Fin lo /\ bmiAtMaxWeight r = Js.Fin hi
      /\ spec_bmi (minHealthyWeightLbs r) (heightInMeters initial_input)
         = Js.Fin lo_kg
      /\ spec_bmi (maxHealthyWeightLbs r) (heightInMeters initial_input)
         = Js.Fin hi_kg
      /\ lo == 2.20462 * lo_kg /\ hi == 2.20462 * hi_kg
      /\ 47 < lo /\ lo_kg < 21.4 /\ 55 < hi /\ hi_kg < 25.1.
Proof.
  split.
  - unfold valid, initial_input; simpl. repeat split; vm_compute; congruence.
  - do 5 eexists. split; [reflexivity|].
    repeat split; vm_compute; reflexivity.
Qed.

(** ** The midpoint classification *)

(** The chain of tests of the source on a finite BMI. *)
Lemma classify_finite (q : Q) :
  (q < 18.5 -> classify (Js.Fin q) = "Underweight"%string)
  /\ (18.5 <= q <= 24.9 -> classify (Js.Fin q) = "Normal"%string)
  /\ (25 <= q <= 29.9 -> classify (Js.Fin q) = "Overweight"%string)
  /\ (24.9 < q < 25 \/ 29.9 < q -> classify (Js.Fin q) = "Obese"%string).
Proof.
  unfold classify, Js.lt, Js.ge, Js.le.
  destruct (Js.ltb q 18.5) eqn:E1.
  { apply ltb_lt in E1. repeat split; intros; try reflexivity; exfalso; lra. }
  apply ltb_ge in E1.
  destruct (Qle_bool 18.5 q) eqn:E2; cycle 1.
  { apply leb_gt in E2. exfalso; lra. }
  destruct (Qle_bool q 24.9) eqn:E3; simpl.
  { apply Qle_bool_iff in E3.
    repeat split; intros; try reflexivity; exfalso; lra. }
  apply leb_gt in E3.
  destruct (Qle_bool 25 q) eqn:E4; simpl.
  - apply Qle_bool_iff in E4.
    destruct (Qle_bool q 29.9) eqn:E5.
    + apply Qle_bool_iff in E5.
      repeat split; intros; try reflexivity; exfalso; lra.
    + apply leb_gt in E5.
      repeat split; intros; try reflexivity; exfalso; lra.
  - apply leb_gt in E4.
    repeat split; intros; try reflexivity; exfalso; lra.
Qed.

(** C1: for the valid input male, 25, 7 ft 0 in, medium, the midpoint BMI is
    a finite value in (24.9, 25), so in (24.9, 29.9], and the effect
    classifies it "Obese". *)
Theorem midpoint_in_gap_is_obese :
  valid seven_feet
  /\ exists r q,
      compute seven_feet = Some r
      /\ bmiAtMidpoint seven_feet r = Js.Fin q
      /\ 24.9 < q /\ q < 25 /\ q <= 29.9
      /\ bmiClassification r = "Obese"%string.
Proof.
  split.
  - unfold valid, seven_feet; simpl. repeat split; vm_compute; congruence.
  - do 2 eexists. split; [reflexivity|].
    split; [vm_compute; reflexivity|].
    repeat split; vm_compute; congruence.
Qed.

(** The midpoint path does convert pounds to kilograms. *)
Lemma midpoint_converts (minLbs maxLbs heightM : Q) :
  midpointBmi minLbs maxLbs heightM = spec_bmi ((minLbs + maxLbs) / 2) heightM.
Proof. reflexivity. Qed.

(** ** Positive weights and BMI bounds *)

Lemma frameAdjust_positive (b : BoneStructure) (lbs : Q) :
  0 < frameAdjust b lbs <-> 0 < lbs.
Proof.
  destruct b; simpl; split; intro H; lra.
Qed.

Lemma hamwi_positive (i : Input) :
  0 < hamwi (sex i) (totalInches i) <-> above_hamwi_zero i.
Proof.
  unfold above_hamwi_zero. rewrite hamwi_line.
  destruct (sex i); simpl; split; intro H; lra.
Qed.

Lemma above_hamwi_zero_height (i : Input) :
  above_hamwi_zero i -> 0 < totalInches i.
Proof.
  unfold above_hamwi_zero. destruct (sex i); intro H; lra.
Qed.

(** The claim C3 as stated fails: with both height fields at zero the input
    is valid, the base weight is -254 lbs and the BMI bounds are
    [-Infinity]. *)
Lemma zero_height_not_positive :
  valid zero_height
  /\ exists r,
      compute zero_height = Some r
      /\ baseHamwiWeightLbs r == -254
      /\ bmiAtMinWeight r = Js.NegInfinity
      /\ bmiAtMaxWeight r = Js.NegInfinity
      /\ ~ all_positive r.
Proof.
  split.
  - unfold valid, zero_height; simpl. repeat split; vm_compute; congruence.
  - eexists. split; [reflexivity|].
    split; [reflexivity|]. split; [reflexivity|]. split; [reflexivity|].
    intros [H _]. vm_compute in H. discriminate.
Qed.

Lemma clear_is_above_hamwi_zero (i : Input) :
  clear_of_hamwi_zero i -> above_hamwi_zero i.
Proof.
  unfold clear_of_hamwi_zero, above_hamwi_zero.
  destruct (sex i); intros [H _]; lra.
Qed.

(** C3, amended: for a valid input whose height is at least 43 inches
    (male) or 41 inches (female) and at most 10000 inches, the four weights
    and the two BMI bounds of the result are positive reals. *)
Theorem positive_clear_of_hamwi_zero (i : Input) :
  valid i ->
  clear_of_hamwi_zero i ->
  exists r, compute i = Some r /\ all_positive r.
Proof.
  intros Hv Hc. apply clear_is_above_hamwi_zero in Hc as Ha.
  eexists. split; [apply compute_valid, Hv|].
  unfold all_positive, calculate.
  cbn [baseHamwiWeightLbs adjustedFrameWeightLbs minHealthyWeightLbs
       maxHealthyWeightLbs bmiAtMinWeight bmiAtMaxWeight].
  pose proof (height_squared_positive i (above_hamwi_zero_height i Ha)) as Hh.
  apply hamwi_positive in Ha.
  apply (frameAdjust_positive (boneStructure i)) in Ha as Hf.
  unfold rangePercentage.
  assert (Hmin : 0 < frameAdjust (boneStructure i)
                       (hamwi (sex i) (totalInches i)) * (1 - 0.08)) by lra.
  assert (Hmax : 0 < frameAdjust (boneStructure i)
                       (hamwi (sex i) (totalInches i)) * (1 + 0.08)) by lra.
  repeat split; try assumption; apply div_positive; assumption.
Qed.

Lemma positive_clear_of_hamwi_zero_witness :
  exists r, compute initial_input = Some r /\ all_positive r.
Proof.
  apply (positive_clear_of_hamwi_zero initial_input).
  - unfold valid, initial_input; simpl. repeat split; vm_compute; congruence.
  - split; vm_compute; congruence.
Defined.

(** ** The guard of the usage increment *)

(** The claim C4 as stated fails: with 0 feet and 7 inches entered for an
    adult the calculation succeeds and the increment is not invoked. *)
Lemma increment_not_invoked_without_feet :
  ~ (forall i : Input,
        incrementUsage (effect i) = true <->
        (exists r, compute i = Some r) /\ 18 <= age i).
Proof.
  intro H.
  assert (Hinc : incrementUsage (effect inches_only) = true).
  { apply H. split.
    - eexists. reflexivity.
    - vm_compute. congruence. }
  vm_compute in Hinc. discriminate.
Qed.

(** C4, amended: the effect invokes the usage increment exactly when the
    calculation succeeds, [ageYears >= 18] and [heightFeet > 0]. *)
Theorem increment_invoked_iff (i : Input) :
  incrementUsage (effect i) = true <->
  (exists r, compute i = Some r) /\ 18 <= age i /\ 0 < heightFeet i.
Proof.
  unfold compute, effect.
  destruct (invalid i) eqn:E; cbn [incrementUsage recommendedWeight].
  - split; [discriminate|]. intros [[r Hr] _]. discriminate.
  - apply invalid_false in E. destruct E as (_ & _ & Hin & _).
    rewrite !andb_true_iff, !Qle_bool_iff, ltb_lt.
    split.
    + intros [[Ha Hf] _]. split; [eexists; reflexivity|]. split; assumption.
    + intros (_ & Ha & Hf). repeat split; assumption.
Qed.

(** ** Reading the usage file *)

Section Reading.

Variable w : World.

(** The [try] block throws or returns as the file decodes, and writes
    nothing. *)
Lemma readCount_cases : readCount w = (w, decoded (usageFile w)).
Proof.
  unfold readCount, bind, readFile, decoded, contents.
  destruct (usageFile w) as [code|[|[|c]]|[code|[|[|c]]] wcode]; reflexivity.
Qed.

(** The [try] block writes nothing, whether it throws or not. *)
Lemma readCount_pure : fst (readCount w) = w.
Proof. rewrite readCount_cases. reflexivity. Qed.

Lemma is_ENOENT_code (e : Error) :
  is_ENOENT e = true <-> e = ErrnoException ENOENT.
Proof.
  destruct e as [code| |]; simpl.
  - rewrite String.eqb_eq. split; congruence.
  - split; discriminate.
  - split; discriminate.
Qed.

(** The write of the [catch] clause, by the file. *)
Lemma writeFile_cases (data : FileText) :
  writeFile data w
  = match usageFile w with
    | Protected _ code => (w, inl (ErrnoException code))
    | _ => (with_file (Holding data) w, inr tt)
    end.
Proof. unfold writeFile. destruct (usageFile w); reflexivity. Qed.

(** [getUsageCount] by the outcome of its [try] block. *)
Lemma getUsageCount_cases :
  getUsageCount w =
  match decoded (usageFile w) with
  | inr c => (w, inr c)
  | inl e =>
      if is_ENOENT e then
        match usageFile w with
        | Protected _ code => (w, inl (ErrnoException code))
        | _ => (with_file (holds 0) w, inr 0%Z)
        end
      else
        ({| usageFile := usageFile w;
            console := console w ++ ["Error reading usage file:"%string] |},
         inr 0%Z)
  end.
Proof.
  unfold getUsageCount, tryCatch. rewrite readCount_cases.
  destruct (decoded (usageFile w)) as [e|c]; [|reflexivity].
  destruct (is_ENOENT e); [|reflexivity].
  unfold bind. rewrite writeFile_cases.
  destruct (usageFile w); reflexivity.
Qed.

End Reading.

(** Reading a file that holds a count returns it and changes nothing. *)
Lemma getUsageCount_holds (c : Z) (w : World) :
  usageFile w = holds c -> getUsageCount w = (w, inr c).
Proof.
  intro H. rewrite getUsageCount_cases, H. simpl.
  destruct (Z.eqb_spec c 0) as [->|_]; reflexivity.
Qed.



(** C10: a read that fails leaves the world as it was, and when the failure
    is not the absence of the file [getUsageCount] leaves the file as it
    was; [getUsageCount] changes the file only when the file is absent, and
    then to the record [{count: 0}]. *)
Theorem failed_read_keeps_file (w : World) :
  (forall (e : Error) (w' : World),
      readCount w = (w', inl e) ->
      w' = w
      /\ (e <> ErrnoException ENOENT ->
          usageFile (fst (getUsageCount w)) = usageFile w))
  /\ (usageFile (fst (getUsageCount w)) <> usageFile w ->
      usageFile w = Failing ENOENT
      /\ usageFile (fst (getUsageCount w)) = holds 0).
Proof.
  split.
  - intros e w' H. rewrite readCount_cases in H. inversion H as [[Hw Hd]].
    split; [reflexivity|].
    intro Hne. rewrite getUsageCount_cases, Hd.
    destruct (is_ENOENT e) eqn:E; [|reflexivity].
    apply is_ENOENT_code in E. contradiction.
  - rewrite getUsageCount_cases.
    destruct (decoded (usageFile w)) as [e|c] eqn:Hd; cycle 1.
    { simpl. congruence. }
    destruct (is_ENOENT e) eqn:E; simpl; [|congruence].
    apply is_ENOENT_code in E. subst e.
    unfold decoded, contents in Hd.
    destruct (usageFile w) as [code|[|[|c]]|[code|[|[|c]]] wcode] eqn:Hf;
      simpl; rewrite ?Hf; try discriminate; try congruence.
    intros _. split; [congruence|reflexivity].
Qed.

Lemma failed_read_keeps_file_witness :
  (fst (readCount malformed_world) = malformed_world
   /\ usageFile (fst (getUsageCount malformed_world)) = Holding Malformed)
  /\ (usageFile fresh_world = Failing ENOENT
      /\ usageFile (fst (getUsageCount fresh_world)) = holds 0).
Proof.
  split.
  - destruct (proj1 (failed_read_keeps_file malformed_world)
                SyntaxError malformed_world eq_refl) as [H1 H2].
    split.
    + reflexivity.
    + apply H2. discriminate.
  - apply (proj2 (failed_read_keeps_file fresh_world)). discriminate.
Defined.

(** ** Incrementing *)

(** Up to 2^53 in absolute value an integer is its own double. *)
Lemma to_double_exact (n : Z) :
  (- Js.two_53 <= n <= Js.two_53)%Z -> Js.to_double n = n.
Proof.
  intro H. unfold Js.to_double.
  destruct (Z.leb_spec (Z.abs n) Js.two_53) as [_|Hgt]; [reflexivity|lia].
Qed.

(** One call on a file that holds [c]: the file then holds the double of
    [c + 1], which is the value returned, and nothing is logged. *)
Lemma increment_holds (c : Z) (w : World) :
  usageFile w = holds c ->
  incrementUsageCount w
  = (with_file (holds (Js.to_double (c + 1))) w, inr (Js.to_double (c + 1))).
Proof.
  intro H. unfold incrementUsageCount, bind.
  rewrite (getUsageCount_holds c w H), writeFile_cases, H. reflexivity.
Qed.

Lemma increment_once (c : Z) (w : World) :
  usageFile w = holds c ->
  (- Js.two_53 <= c + 1 <= Js.two_53)%Z ->
  incrementUsageCount w = (with_file (holds (c + 1)) w, inr (c + 1)%Z).
Proof.
  intros H Hc. rewrite (increment_holds c w H), (to_double_exact _ Hc).
  reflexivity.
Qed.

Lemma counts_after_step (c : Z) (n : nat) :
  counts_after c (S n) = (c + 1)%Z :: counts_after (c + 1) n.
Proof.
  unfold counts_after. simpl. f_equal.
  rewrite <- seq_shift, map_map.
  apply map_ext. intro k. lia.
Qed.

Lemma increment_many (n : nat) :
  forall (c : Z) (w : World),
    usageFile w = holds c ->
    (- Js.two_53 <= c)%Z ->
    (c + Z.of_nat n <= Js.two_53)%Z ->
    incrementTimes n w
    = (with_file (holds (c + Z.of_nat n)) w, inr (counts_after c n)).
Proof.
  induction n as [|n IH]; intros c w H Hlo Hhi.
  - simpl. unfold ret, with_file. rewrite Z.add_0_r, <- H.
    destruct w; reflexivity.
  - cbn [incrementTimes]. unfold bind at 1.
    rewrite (increment_once c w H) by lia.
    unfold bind at 1.
    rewrite (IH (c + 1)%Z (with_file (holds (c + 1)) w) eq_refl) by lia.
    rewrite counts_after_step. unfold ret, with_file. simpl.
    do 3 f_equal. lia.
Qed.

Lemma counts_after_nth (c : Z) (n k : nat) :
  (1 <= k <= n)%nat ->
  nth_error (counts_after c n) (k - 1) = Some (c + Z.of_nat k)%Z.
Proof.
  intro Hk. unfold counts_after.
  rewrite nth_error_map, nth_error_seq.
  destruct (Nat.ltb_spec (k - 1) n) as [_|Hge]; [|lia].
  simpl. do 2 f_equal. lia.
Qed.

(** The claim C8 as stated fails: on a file that holds 2^53 a call reads
    2^53, adds one in double arithmetic, and answers 2^53 again; the file
    stays at 2^53. *)
Lemma increment_stops_at_two_53 :
  usageFile full_world = holds Js.two_53
  /\ incrementAndRead full_world = (full_world, inr Js.two_53)
  /\ incrementTimes 2 full_world
     = (full_world, inr [Js.two_53; Js.two_53])
  /\ (Js.two_53 <> Js.two_53 + 1)%Z.
Proof.
  split; [reflexivity|]. split; [vm_compute; reflexivity|].
  split; [vm_compute; reflexivity|]. unfold Js.two_53. lia.
Qed.

(** C8, amended: from a file that can be written and holds the integer
    count [c], with [-2^53 <= c] and [c + N <= 2^53], [N] calls of
    [incrementAndRead] one after the other return [c + 1], ..., [c + N] (the
    [k]-th call returns [c + k]) and leave the file holding [c + N]; a
    single call reads [c], writes [c + 1] and returns [c + 1]. *)
Theorem sequential_increments (c : Z) (N : nat) (w : World) :
  usageFile w = holds c ->
  (- Js.two_53 <= c)%Z ->
  (c + Z.of_nat N <= Js.two_53)%Z ->
  incrementTimes N w
  = (with_file (holds (c + Z.of_nat N)) w, inr (counts_after c N))
  /\ (forall k : nat,
         (1 <= k <= N)%nat ->
         nth_error (counts_after c N) (k - 1) = Some (c + Z.of_nat k)%Z)
  /\ read w = (w, inr c)
  /\ ((1 <= N)%nat ->
      incrementAndRead w = (with_file (holds (c + 1)) w, inr (c + 1)%Z)).
Proof.
  intros H Hlo Hhi. split; [|split; [|split]].
  - apply increment_many; assumption.
  - intros k Hk. apply counts_after_nth, Hk.
  - apply getUsageCount_holds, H.
  - intro HN. apply increment_once; [exact H|lia].
Qed.

Lemma sequential_increments_witness :
  incrementTimes 3 (with_file (holds 7) fresh_world)
  = (with_file (holds 10) fresh_world, inr [8; 9; 10]%Z)
  /\ nth_error (counts_after 7 3) 1 = Some 9%Z
  /\ incrementAndRead (with_file (holds 7) fresh_world)
     = (with_file (holds 8) fresh_world, inr 8%Z).
Proof.
  assert (Hlo : (- Js.two_53 <= 7)%Z) by (unfold Js.two_53; lia).
  assert (Hhi : (7 + Z.of_nat 3 <= Js.two_53)%Z) by (unfold Js.two_53; lia).
  destruct (sequential_increments 7 3 (with_file (holds 7) fresh_world)
              eq_refl Hlo Hhi)
    as (Hrun & Hnth & _ & Hone).
  split; [exact Hrun|]. split.
  - apply (Hnth 2%nat). lia.
  - apply Hone. lia.
Defined.

(** ** The range around the adjusted weight *)

Lemma compute_some (i : Input) (r : WeightResult) :
  compute i = Some r -> valid i /\ r = calculate i.
Proof.
  unfold compute, effect.
  destruct (invalid i) eqn:E; simpl; intro H; [discriminate|].
  apply invalid_false in E. split; [exact E|congruence].
Qed.

Lemma compute_initial : compute initial_input = Some (calculate initial_input).
Proof. reflexivity. Qed.

(** X1: for a result at a height of at least 43 inches (male) or 41
    (female) and at most 10000 inches, the frame-adjusted weight lies
    strictly inside the range; for a result at a height of at most 42 inches
    (male) or 39 (female) the range is inverted and negative: the upper end
    is below the adjusted weight, which is below the lower end, which is
    below zero. *)
Theorem range_around_adjusted (i : Input) (r : WeightResult) :
  compute i = Some r ->
  (clear_of_hamwi_zero i ->
   minHealthyWeightLbs r < adjustedFrameWeightLbs r
   /\ adjustedFrameWeightLbs r < maxHealthyWeightLbs r)
  /\ (short_of_hamwi_zero i ->
      maxHealthyWeightLbs r < adjustedFrameWeightLbs r
      /\ adjustedFrameWeightLbs r < minHealthyWeightLbs r
      /\ minHealthyWeightLbs r < 0).
Proof.
  intro H. apply compute_some in H as [_ ->].
  unfold calculate, rangePercentage.
  cbn [minHealthyWeightLbs maxHealthyWeightLbs adjustedFrameWeightLbs].
  pose proof (hamwi_line (sex i) (totalInches i)) as Hl.
  split.
  - unfold clear_of_hamwi_zero. intros [Hc _].
    destruct (boneStructure i), (sex i); unfold frameAdjust;
      simpl baseAt60 in Hl; simpl perInch in Hl; split; lra.
  - unfold short_of_hamwi_zero. intro Hs.
    destruct (boneStructure i), (sex i); unfold frameAdjust;
      simpl baseAt60 in Hl; simpl perInch in Hl; repeat split; lra.
Qed.

Lemma range_around_adjusted_witness :
  (minHealthyWeightLbs (calculate initial_input)
   < adjustedFrameWeightLbs (calculate initial_input)
   /\ adjustedFrameWeightLbs (calculate initial_input)
      < maxHealthyWeightLbs (calculate initial_input))
  /\ (maxHealthyWeightLbs (calculate zero_height)
      < adjustedFrameWeightLbs (calculate zero_height)
      /\ adjustedFrameWeightLbs (calculate zero_height)
         < minHealthyWeightLbs (calculate zero_height)
      /\ minHealthyWeightLbs (calculate zero_height) < 0).
Proof.
  split.
  - apply (proj1 (range_around_adjusted initial_input
                    (calculate initial_input) eq_refl)).
    split; vm_compute; congruence.
  - apply (proj2 (range_around_adjusted zero_height
                    (calculate zero_height) eq_refl)).
    vm_compute. congruence.
Defined.

(** ** Where "Obese" comes from *)

Lemma square_nonneg (x : Q) : 0 <= x * x.
Proof. nra. Qed.

(** The adjusted weight stays below the weight of BMI 27 at every height
    from zero up: the Hamwi line with the large frame never reaches that
    parabola. *)
Lemma adjusted_below_27 (s : Sex) (b : BoneStructure) (t : Q) :
  0 <= t ->
  frameAdjust b (hamwi s t) < 27 * (2.20462 * ((t * 0.0254) * (t * 0.0254))).
Proof.
  intro Ht.
  pose proof (hamwi_line s t) as Hl.
  pose proof (square_nonneg (t - 84)) as Hm.
  destruct b, s; unfold frameAdjust; simpl baseAt60 in Hl; simpl perInch in Hl;
    nra.
Qed.

(** The midpoint BMI of a valid input: [-Infinity] at zero height, else a
    finite value below 27. *)
Lemma midpoint_value (i : Input) :
  valid i ->
  bmiAtMidpoint i (calculate i) = Js.NegInfinity
  \/ exists q, bmiAtMidpoint i (calculate i) = Js.Fin q /\ q < 27.
Proof.
  intros (_ & Hf & Hin & _).
  assert (Ht : 0 <= totalInches i) by (unfold totalInches; lra).
  unfold bmiAtMidpoint, midpointBmi, calculate, rangePercentage.
  cbn [minHealthyWeightLbs maxHealthyWeightLbs].
  pose proof (adjusted_below_27 (sex i) (boneStructure i) _ Ht) as Hlt.
  set (a := frameAdjust (boneStructure i) (hamwi (sex i) (totalInches i))) in *.
  set (x := (a * (1 - 0.08) + a * (1 + 0.08)) / 2 / 2.20462).
  assert (Hx : x * 2.20462 == a) by (unfold x; field).
  unfold heightInMeters.
  destruct (Qeq_dec (totalInches i) 0) as [Hz|Hnz].
  - left. unfold Js.div.
    assert (E : Qeq_bool (totalInches i * 0.0254 * (totalInches i * 0.0254)) 0
                = true).
    { apply Qeq_bool_iff. rewrite Hz. reflexivity. }
    rewrite E.
    assert (Hneg : x < 0).
    { rewrite Hz in Hlt. lra. }
    rewrite (proj1 (Qlt_alt x 0) Hneg). reflexivity.
  - right.
    assert (Hp : 0 < totalInches i * 0.0254 * (totalInches i * 0.0254)).
    { assert (0 < totalInches i)
        by (destruct (Qle_lt_or_eq _ _ Ht) as [|E];
            [assumption|symmetry in E; contradiction]).
      nra. }
    eexists. split.
    + apply div_nonzero. lra.
    + apply Qlt_shift_div_r; [exact Hp|]. lra.
Qed.

(** X3: for every result the midpoint BMI is below 27, far from the 29.9
    of the last test, so "Obese" comes from the gap between the second and
    the third test alone: a result classified "Obese" has a midpoint BMI
    between 24.89 and 25.01, and a midpoint BMI from 24.91 to 24.99 is
    classified "Obese".  The height is at most 10000 inches. *)
Theorem obese_only_near_the_gap (i : Input) (r : WeightResult) :
  compute i = Some r ->
  totalInches i <= 10000 ->
  Js.lt (bmiAtMidpoint i r) 27 = true
  /\ (bmiClassification r = "Obese"%string ->
      exists q, bmiAtMidpoint i r = Js.Fin q /\ 24.89 < q < 25.01)
  /\ (forall q,
         bmiAtMidpoint i r = Js.Fin q ->
         24.91 <= q <= 24.99 ->
         bmiClassification r = "Obese"%string).
Proof.
  intros H _. apply compute_some in H as [Hv ->].
  change (bmiClassification (calculate i))
    with (classify (bmiAtMidpoint i (calculate i))).
  destruct (midpoint_value i Hv) as [E|[q [E Hq]]]; rewrite E.
  - split; [reflexivity|]. split.
    + discriminate.
    + intros q Hq. discriminate.
  - destruct (classify_finite q) as (Hu & Hn & Ho & Hb).
    split; [simpl; apply ltb_lt; exact Hq|]. split.
    + intro Hc. exists q. split; [reflexivity|].
      destruct (Qlt_le_dec q 18.5) as [H1|H1].
      { rewrite (Hu H1) in Hc. discriminate. }
      destruct (Qlt_le_dec 24.9 q) as [H2|H2]; cycle 1.
      { rewrite (Hn (conj H1 H2)) in Hc. discriminate. }
      destruct (Qlt_le_dec q 25) as [H3|H3]; [split; lra|].
      assert (H4 : q <= 29.9) by lra.
      rewrite (Ho (conj H3 H4)) in Hc. discriminate.
    + intros q' Hq' Hgap. inversion Hq'; subst q'.
      apply Hb. left. split; lra.
Qed.

Lemma obese_only_near_the_gap_witness :
  Js.lt (bmiAtMidpoint seven_feet (calculate seven_feet)) 27 = true
  /\ (bmiClassification (calculate seven_feet) = "Obese"%string ->
      exists q,
        bmiAtMidpoint seven_feet (calculate seven_feet) = Js.Fin q
        /\ 24.89 < q < 25.01)
  /\ (forall q,
         bmiAtMidpoint seven_feet (calculate seven_feet) = Js.Fin q ->
         24.91 <= q <= 24.99 ->
         bmiClassification (calculate seven_feet) = "Obese"%string).
Proof.
  apply (obese_only_near_the_gap seven_feet (calculate seven_feet)).
  - reflexivity.
  - vm_compute. congruence.
Defined.

(** ** The health status over the heights of people *)

(** Between 51 and 200 inches the lower end of the range, in pounds, is
    above 24.9 times the squared height in meters, whatever the sex and the
    frame. *)
Lemma min_pounds_above_band (s : Sex) (b : BoneStructure) (t : Q) :
  51 <= t <= 200 ->
  24.9 * ((t * 0.0254) * (t * 0.0254))
  < frameAdjust b (hamwi s t) * (1 - rangePercentage).
Proof.
  intros [Hlo Hhi]. unfold rangePercentage.
  pose proof (hamwi_line s t) as Hl.
  assert (Hp : 0 <= (t - 51) * (200 - t)) by (apply Qmult_le_0_compat; lra).
  destruct b, s; unfold frameAdjust; simpl baseAt60 in Hl; simpl perInch in Hl;
    nra.
Qed.

(** X4: for every valid input with a height from 4 ft 3 in to 16 ft 8 in
    (51 to 200 inches), whatever the sex, age and frame, the stored
    [bmiAtMinWeight] is above 24.9, so the health status is [fully_outside]
    and the label reads "Outside Standard BMI Range". *)
Theorem status_outside_for_human_heights (i : Input) (r : WeightResult) :
  compute i = Some r ->
  51 <= totalInches i <= 200 ->
  Js.gt (bmiAtMinWeight r) 24.9 = true
  /\ healthStatus r = fully_outside
  /\ healthStatusLabel r = "Outside Standard BMI Range"%string.
Proof.
  intros H Ht. apply compute_some in H as [Hv ->].
  assert (Hpos : 0 < totalInches i) by lra.
  pose proof (height_squared_positive i Hpos) as Hh.
  pose proof (min_pounds_above_band (sex i) (boneStructure i) _ Ht) as Hm.
  fold (heightInMeters i) in Hm.
  assert (Hgt : Js.gt (bmiAtMinWeight (calculate i)) 24.9 = true).
  { unfold calculate; cbn [bmiAtMinWeight].
    rewrite div_nonzero by lra. simpl.
    apply ltb_lt. apply Qlt_shift_div_l; assumption. }
  split; [exact Hgt|].
  unfold calculate in *. cbn [bmiAtMinWeight healthStatus healthStatusLabel] in *.
  unfold status. rewrite Hgt. split; reflexivity.
Qed.

Lemma status_outside_for_human_heights_witness :
  Js.gt (bmiAtMinWeight (calculate initial_input)) 24.9 = true
  /\ healthStatus (calculate initial_input) = fully_outside
  /\ healthStatusLabel (calculate initial_input)
     = "Outside Standard BMI Range"%string.
Proof.
  apply (status_outside_for_human_heights initial_input
           (calculate initial_input)).
  - reflexivity.
  - split; vm_compute; congruence.
Defined.

(** ** The weights of the standard BMI band *)

(** X5: for a valid input with a height from 1 to 10000 inches,
    [bmiHealthyMinLbs] and [bmiHealthyMaxLbs] are positive, the first below
    the second, and they are the weights of BMI 18.5 and 24.9: converted to
    kilograms and divided by the squared height they give 18.5 and 24.9 to
    within 10^-9. *)
Theorem bmi_band_weights_round_trip (i : Input) (r : WeightResult) :
  compute i = Some r ->
  1 <= totalInches i <= 10000 ->
  (exists lo hi,
      spec_bmi (bmiHealthyMinLbs r) (heightInMeters i) = Js.Fin lo
      /\ spec_bmi (bmiHealthyMaxLbs r) (heightInMeters i) = Js.Fin hi
      /\ 18.5 - 0.000000001 < lo < 18.5 + 0.000000001
      /\ 24.9 - 0.000000001 < hi < 24.9 + 0.000000001)
  /\ 0 < bmiHealthyMinLbs r < bmiHealthyMaxLbs r.
Proof.
  intros H [Ht _]. apply compute_some in H as [_ ->].
  assert (Hpos : 0 < totalInches i) by lra.
  pose proof (height_squared_positive i Hpos) as Hh.
  assert (Hne : ~ heightInMeters i * heightInMeters i == 0) by lra.
  assert (Hm : ~ heightInMeters i == 0) by (intro E; rewrite E in Hh; lra).
  unfold calculate, spec_bmi. cbn [bmiHealthyMinLbs bmiHealthyMaxLbs].
  split.
  - do 2 eexists.
    split; [apply div_nonzero, Hne|]. split; [apply div_nonzero, Hne|].
    assert (Hlo : 18.5 * (heightInMeters i * heightInMeters i) * 2.20462
                  / 2.20462 / (heightInMeters i * heightInMeters i) == 18.5)
      by (field; exact Hm).
    assert (Hhi : 24.9 * (heightInMeters i * heightInMeters i) * 2.20462
                  / 2.20462 / (heightInMeters i * heightInMeters i) == 24.9)
      by (field; exact Hm).
    rewrite Hlo, Hhi. repeat split; reflexivity.
  - split; lra.
Qed.

Lemma bmi_band_weights_round_trip_witness :
  (exists lo hi,
      spec_bmi (bmiHealthyMinLbs (calculate initial_input))
               (heightInMeters initial_input) = Js.Fin lo
      /\ spec_bmi (bmiHealthyMaxLbs (calculate initial_input))
                  (heightInMeters initial_input) = Js.Fin hi
      /\ 18.5 - 0.000000001 < lo < 18.5 + 0.000000001
      /\ 24.9 - 0.000000001 < hi < 24.9 + 0.000000001)
  /\ 0 < bmiHealthyMinLbs (calculate initial_input)
     < bmiHealthyMaxLbs (calculate initial_input).
Proof.
  apply (bmi_band_weights_round_trip initial_input (calculate initial_input)).
  - reflexivity.
  - split; vm_compute; congruence.
Defined.

(** ** Frames and heights *)

Lemma valid_with_frame (b : BoneStructure) (i : Input) :
  valid i -> valid (with_frame b i).
Proof. intro H. exact H. Qed.

(** X6: at a valid height of at least 43 inches (male) or 41 (female) and
    at most 10000 inches the three frames give increasing adjusted weights,
    lower ends and upper ends, and the ranges of neighbouring frames
    overlap: the lower end of the next frame is below the upper end of the
    previous one. *)
Theorem frames_ordered_and_overlapping (i : Input) :
  valid i ->
  clear_of_hamwi_zero i ->
  exists rs rm rl,
    compute (with_frame small i) = Some rs
    /\ compute (with_frame medium i) = Some rm
    /\ compute (with_frame large i) = Some rl
    /\ adjustedFrameWeightLbs rs < adjustedFrameWeightLbs rm
       < adjustedFrameWeightLbs rl
    /\ minHealthyWeightLbs rs < minHealthyWeightLbs rm < minHealthyWeightLbs rl
    /\ maxHealthyWeightLbs rs < maxHealthyWeightLbs rm < maxHealthyWeightLbs rl
    /\ minHealthyWeightLbs rm < maxHealthyWeightLbs rs
    /\ minHealthyWeightLbs rl < maxHealthyWeightLbs rm.
Proof.
  intros Hv Hc. apply clear_is_above_hamwi_zero in Hc as Ha.
  apply hamwi_positive in Ha.
  exists (calculate (with_frame small i)), (calculate (with_frame medium i)),
    (calculate (with_frame large i)).
  repeat (split; [apply compute_valid, valid_with_frame, Hv|]).
  unfold calculate, with_frame, totalInches, rangePercentage; simpl.
  unfold totalInches in Ha.
  repeat split; lra.
Qed.

Lemma frames_ordered_and_overlapping_witness :
  exists rs rm rl,
    compute (with_frame small initial_input) = Some rs
    /\ compute (with_frame medium initial_input) = Some rm
    /\ compute (with_frame large initial_input) = Some rl
    /\ adjustedFrameWeightLbs rs < adjustedFrameWeightLbs rm
       < adjustedFrameWeightLbs rl
    /\ minHealthyWeightLbs rs < minHealthyWeightLbs rm < minHealthyWeightLbs rl
    /\ maxHealthyWeightLbs rs < maxHealthyWeightLbs rm < maxHealthyWeightLbs rl
    /\ minHealthyWeightLbs rm < maxHealthyWeightLbs rs
    /\ minHealthyWeightLbs rl < maxHealthyWeightLbs rm.
Proof.
  apply (frames_ordered_and_overlapping initial_input).
  - unfold valid, initial_input; simpl. repeat split; vm_compute; congruence.
  - split; vm_compute; congruence.
Defined.

(** X7: for two valid inputs of the same sex and frame and of at most
    10000 inches, one at least a hundredth of an inch taller than the other,
    the taller one has the larger base weight, adjusted weight, lower end
    and upper end, and the larger weights of the standard BMI band. *)
Theorem taller_is_heavier (i1 i2 : Input) (r1 r2 : WeightResult) :
  compute i1 = Some r1 ->
  compute i2 = Some r2 ->
  sex i1 = sex i2 ->
  boneStructure i1 = boneStructure i2 ->
  totalInches i1 + 0.01 <= totalInches i2 ->
  totalInches i2 <= 10000 ->
  baseHamwiWeightLbs r1 < baseHamwiWeightLbs r2
  /\ adjustedFrameWeightLbs r1 < adjustedFrameWeightLbs r2
  /\ minHealthyWeightLbs r1 < minHealthyWeightLbs r2
  /\ maxHealthyWeightLbs r1 < maxHealthyWeightLbs r2
  /\ bmiHealthyMinLbs r1 < bmiHealthyMinLbs r2
  /\ bmiHealthyMaxLbs r1 < bmiHealthyMaxLbs r2.
Proof.
  intros H1 H2 Hs Hb Ht _.
  apply compute_some in H1 as [Hv1 ->]. apply compute_some in H2 as [Hv2 ->].
  assert (Hbase : hamwi (sex i1) (totalInches i1)
                  < hamwi (sex i2) (totalInches i2)).
  { rewrite Hs, !hamwi_line. destruct (sex i2); simpl; lra. }
  assert (H0 : 0 <= totalInches i1).
  { destruct Hv1 as (_ & ? & ? & _). unfold totalInches. lra. }
  unfold calculate, rangePercentage, heightInMeters.
  cbn [baseHamwiWeightLbs adjustedFrameWeightLbs minHealthyWeightLbs
       maxHealthyWeightLbs bmiHealthyMinLbs bmiHealthyMaxLbs].
  rewrite Hb.
  assert (Hsq : totalInches i1 * totalInches i1
                < totalInches i2 * totalInches i2) by nra.
  destruct (boneStructure i2); unfold frameAdjust; repeat split; lra.
Qed.

Lemma taller_is_heavier_witness :
  baseHamwiWeightLbs (calculate four_eleven)
  < baseHamwiWeightLbs (calculate five_one)
  /\ adjustedFrameWeightLbs (calculate four_eleven)
     < adjustedFrameWeightLbs (calculate five_one)
  /\ minHealthyWeightLbs (calculate four_eleven)
     < minHealthyWeightLbs (calculate five_one)
  /\ maxHealthyWeightLbs (calculate four_eleven)
     < maxHealthyWeightLbs (calculate five_one)
  /\ bmiHealthyMinLbs (calculate four_eleven)
     < bmiHealthyMinLbs (calculate five_one)
  /\ bmiHealthyMaxLbs (calculate four_eleven)
     < bmiHealthyMaxLbs (calculate five_one).
Proof.
  apply (taller_is_heavier four_eleven five_one); try reflexivity;
    vm_compute; congruence.
Defined.

(** ** Zero height *)

(** X8: with no height entered (a valid input whose [totalInches] is 0) the
    effect still stores a result: the base weight is negative, both BMI
    bounds are [-Infinity], the classification is "Underweight", the status
    is [fully_outside], the weights of the standard band are 0, and the usage
    increment is not invoked. *)
Theorem zero_height_result (i : Input) (r : WeightResult) :
  compute i = Some r ->
  totalInches i == 0 ->
  baseHamwiWeightLbs r < 0
  /\ bmiAtMinWeight r = Js.NegInfinity
  /\ bmiAtMaxWeight r = Js.NegInfinity
  /\ bmiClassification r = "Underweight"%string
  /\ healthStatus r = fully_outside
  /\ bmiHealthyMinLbs r == 0 /\ bmiHealthyMaxLbs r == 0
  /\ incrementUsage (effect i) = false.
Proof.
  intros H Hz. apply compute_some in H as [Hv ->].
  assert (Hbase : hamwi (sex i) (totalInches i) < 0).
  { rewrite hamwi_line. destruct (sex i); simpl; lra. }
  assert (Hadj : frameAdjust (boneStructure i) (hamwi (sex i) (totalInches i))
                 < 0).
  { destruct (boneStructure i); unfold frameAdjust; lra. }
  assert (Hh : heightInMeters i * heightInMeters i == 0).
  { unfold heightInMeters. rewrite Hz. reflexivity. }
  assert (Hdiv : forall x, x < 0 ->
                 Js.div x (heightInMeters i * heightInMeters i)
                 = Js.NegInfinity).
  { intros x Hx. unfold Js.div.
    rewrite (proj2 (Qeq_bool_iff _ _) Hh).
    rewrite (proj1 (Qlt_alt x 0) Hx). reflexivity. }
  assert (Hmin : bmiAtMinWeight (calculate i) = Js.NegInfinity).
  { unfold calculate, rangePercentage; cbn [bmiAtMinWeight].
    apply Hdiv. lra. }
  assert (Hmax : bmiAtMaxWeight (calculate i) = Js.NegInfinity).
  { unfold calculate, rangePercentage; cbn [bmiAtMaxWeight].
    apply Hdiv. lra. }
  split; [exact Hbase|]. split; [exact Hmin|]. split; [exact Hmax|].
  split.
  { unfold calculate, midpointBmi, rangePercentage; cbn [bmiClassification].
    rewrite Hdiv; [reflexivity|].
    apply Qlt_shift_div_r; [reflexivity|].
    apply Qlt_shift_div_r; [reflexivity|]. lra. }
  split.
  { unfold calculate in *. cbn [healthStatus bmiAtMinWeight bmiAtMaxWeight] in *.
    rewrite Hmin, Hmax. reflexivity. }
  split; [|split].
  - unfold calculate; cbn [bmiHealthyMinLbs]. rewrite Hh. reflexivity.
  - unfold calculate; cbn [bmiHealthyMaxLbs]. rewrite Hh. reflexivity.
  - destruct Hv as (_ & Hf & Hin & _).
    unfold effect. destruct (invalid i); [reflexivity|].
    cbn [incrementUsage].
    assert (Hfeet : Js.ltb 0 (heightFeet i) = false).
    { apply ltb_ge. unfold totalInches in Hz. lra. }
    rewrite Hfeet, andb_false_r. reflexivity.
Qed.

Lemma zero_height_result_witness :
  baseHamwiWeightLbs (calculate zero_height) < 0
  /\ bmiAtMinWeight (calculate zero_height) = Js.NegInfinity
  /\ bmiAtMaxWeight (calculate zero_height) = Js.NegInfinity
  /\ bmiClassification (calculate zero_height) = "Underweight"%string
  /\ healthStatus (calculate zero_height) = fully_outside
  /\ bmiHealthyMinLbs (calculate zero_height) == 0
  /\ bmiHealthyMaxLbs (calculate zero_height) == 0
  /\ incrementUsage (effect zero_height) = false.
Proof.
  apply (zero_height_result zero_height (calculate zero_height));
    reflexivity.
Defined.

(** ** The banner *)

(** X9: the label and the colour classes of the banner identify the health
    status of the result: each of the three statuses has its own label and
    its own colour, so a green banner reads "Within Standard BMI Range", a
    yellow one "Partially Outside Standard BMI Range" and a red one "Outside
    Standard BMI Range", and no other pairing occurs. *)
Theorem banner_matches_status (i : Input) (r : WeightResult) :
  compute i = Some r ->
  (healthStatus r = within <->
   healthStatusLabel r = "Within Standard BMI Range"%string)
  /\ (healthStatus r = partially_outside <->
      healthStatusLabel r = "Partially Outside Standard BMI Range"%string)
  /\ (healthStatus r = fully_outside <->
      healthStatusLabel r = "Outside Standard BMI Range"%string)
  /\ (healthStatus r = within <->
      indicatorClass (healthStatus r)
      = "bg-green-100 text-green-800 border border-green-200"%string)
  /\ (healthStatus r = partially_outside <->
      indicatorClass (healthStatus r)
      = "bg-yellow-100 text-yellow-800 border border-yellow-200"%string)
  /\ (healthStatus r = fully_outside <->
      indicatorClass (healthStatus r)
      = "bg-red-100 text-red-800 border border-red-200"%string).
Proof.
  intro H. apply compute_some in H as [_ ->].
  unfold calculate; cbn [healthStatus healthStatusLabel].
  unfold status.
  destruct (_ || _); [|destruct (_ || _)]; simpl;
    repeat split; intro; solve [reflexivity | discriminate].
Qed.

Lemma banner_matches_status_witness :
  (healthStatus (calculate five_four) = within <->
   healthStatusLabel (calculate five_four)
   = "Within Standard BMI Range"%string)
  /\ (healthStatus (calculate five_four) = partially_outside <->
      healthStatusLabel (calculate five_four)
      = "Partially Outside Standard BMI Range"%string)
  /\ (healthStatus (calculate five_four) = fully_outside <->
      healthStatusLabel (calculate five_four)
      = "Outside Standard BMI Range"%string)
  /\ (healthStatus (calculate five_four) = within <->
      indicatorClass (healthStatus (calculate five_four))
      = "bg-green-100 text-green-800 border border-green-200"%string)
  /\ (healthStatus (calculate five_four) = partially_outside <->
      indicatorClass (healthStatus (calculate five_four))
      = "bg-yellow-100 text-yellow-800 border border-yellow-200"%string)
  /\ (healthStatus (calculate five_four) = fully_outside <->
      indicatorClass (healthStatus (calculate five_four))
      = "bg-red-100 text-red-800 border border-red-200"%string).
Proof.
  apply (banner_matches_status five_four (calculate five_four)).
  reflexivity.
Defined.

(** ** Reads, by the state of the file *)

Lemma read_fails_otherwise_decoded (w : World) :
  read_fails_otherwise w <->
  exists e, decoded (usageFile w) = inl e /\ is_ENOENT e = false.
Proof.
  unfold read_fails_otherwise. rewrite readCount_cases. split.
  - intros (e & w' & H & Hne). exists e. inversion H as [[Hw Hd]].
    split; [reflexivity|].
    destruct (is_ENOENT e) eqn:E; [|reflexivity].
    apply is_ENOENT_code in E. contradiction.
  - intros (e & Hd & He). exists e, w. rewrite Hd. split; [reflexivity|].
    intro E. apply is_ENOENT_code in E. congruence.
Qed.

Lemma app_one_neq {A} (l : list A) (x : A) : l ++ [x] <> l.
Proof.
  intro H. apply (f_equal (@List.length A)) in H.
  rewrite length_app in H. simpl in H. lia.
Qed.

(** X10: [getUsageCount] throws in one case only: the file is absent and
    the write of [{count: 0}] in the [catch] clause fails.  It then throws
    the error of that write and leaves file and console as they were.  For
    every other file it returns a count. *)
Theorem read_throws_only_when_creation_fails (w w' : World) (e : Error) :
  getUsageCount w = (w', inl e) <->
  w' = w
  /\ exists code : string,
      usageFile w = Protected (inl ENOENT) code /\ e = ErrnoException code.
Proof.
  rewrite getUsageCount_cases. unfold decoded, contents.
  destruct (usageFile w) as [code|[|[|c]]|[code|[|[|c]]] wcode]; simpl;
    try (split; [discriminate|intros (_ & code' & Hc & _); discriminate]).
  - destruct (String.eqb_spec code ENOENT) as [->|Hne];
      (split; [discriminate|intros (_ & code' & Hc & _); discriminate]).
  - destruct (String.eqb_spec code ENOENT) as [->|Hne].
    + split.
      * intro H. inversion H. split; [reflexivity|].
        exists wcode. split; reflexivity.
      * intros (-> & code' & Hc & ->). inversion Hc. reflexivity.
    + split; [discriminate|].
      intros (_ & code' & Hc & _). inversion Hc. contradiction.
Qed.

(** X11: [getUsageCount] sends one line to [console.error] exactly when the
    read fails for a reason other than the absence of the file; after an
    absent file or a successful read the console is as before. *)
Theorem read_logs_other_failures (w : World) :
  (read_fails_otherwise w ->
   console (fst (getUsageCount w))
   = console w ++ ["Error reading usage file:"%string])
  /\ (~ read_fails_otherwise w ->
      console (fst (getUsageCount w)) = console w).
Proof.
  rewrite read_fails_otherwise_decoded, getUsageCount_cases.
  destruct (decoded (usageFile w)) as [e|c].
  - destruct (is_ENOENT e) eqn:E.
    + split.
      * intros (e' & He' & Hf). inversion He'; subst. congruence.
      * intros _. destruct (usageFile w); reflexivity.
    + split; [reflexivity|].
      intro H. exfalso. apply H. exists e. split; [reflexivity|exact E].
  - split; [|reflexivity].
    intros (e' & He' & _). discriminate.
Qed.

Lemma read_logs_other_failures_witness :
  console (fst (getUsageCount locked_world))
  = console locked_world ++ ["Error reading usage file:"%string]
  /\ console (fst (getUsageCount fresh_world)) = console fresh_world.
Proof.
  split.
  - apply (proj1 (read_logs_other_failures locked_world)).
    exists (ErrnoException "EACCES"), locked_world.
    split; [reflexivity|discriminate].
  - apply (proj2 (read_logs_other_failures fresh_world)).
    intros (e & w' & H & Hne). inversion H; subst. apply Hne. reflexivity.
Defined.

(** The file after a read: only an absent file that can be written is
    replaced. *)
Lemma getUsageCount_file (w : World) :
  usageFile (fst (getUsageCount w))
  = match usageFile w with
    | Failing code => if (code =? ENOENT)%string then holds 0 else Failing code
    | f => f
    end.
Proof.
  rewrite getUsageCount_cases. unfold decoded, contents.
  destruct (usageFile w) as [code|[|[|c]]|[code|[|[|c]]] wcode] eqn:E;
    simpl; try exact E; try reflexivity;
    destruct (code =? ENOENT)%string; simpl; try reflexivity; exact E.
Qed.

(** What a read answers depends on the file alone. *)
Lemma getUsageCount_answer (w1 w2 : World) :
  usageFile w1 = usageFile w2 ->
  snd (getUsageCount w1) = snd (getUsageCount w2).
Proof.
  intro H. rewrite !getUsageCount_cases, H.
  destruct (decoded (usageFile w2)) as [e|c]; [|reflexivity].
  destruct (is_ENOENT e); [|reflexivity].
  destruct (usageFile w2); reflexivity.
Qed.

(** X12: a second read answers what the first one did and leaves the file
    as the first one left it: only the first read of an absent file
    writes. *)
Theorem read_twice (w : World) :
  snd (getUsageCount (fst (getUsageCount w))) = snd (getUsageCount w)
  /\ usageFile (fst (getUsageCount (fst (getUsageCount w))))
     = usageFile (fst (getUsageCount w)).
Proof.
  destruct (usageFile w) as [code|data|reading wcode] eqn:E.
  - destruct (String.eqb_spec code ENOENT) as [->|Hne].
    + rewrite (getUsageCount_cases w), E. simpl. split; reflexivity.
    + apply String.eqb_neq in Hne. split.
      * apply getUsageCount_answer. rewrite getUsageCount_file, E, Hne.
        reflexivity.
      * rewrite !getUsageCount_file, E, Hne, Hne. reflexivity.
  - split.
    + apply getUsageCount_answer. rewrite getUsageCount_file, E. reflexivity.
    + rewrite !getUsageCount_file, E. reflexivity.
  - split.
    + apply getUsageCount_answer. rewrite getUsageCount_file, E. reflexivity.
    + rewrite !getUsageCount_file, E. reflexivity.
Qed.

(** ** Increments, whatever the file *)






(** X20: an increment of a file whose writes fail throws the error of the
    write and returns no count, whatever the file holds, and the file is as
    it was. *)
Theorem increment_of_protected_file_throws
  (w : World) (reading : string + FileText) (code : string) :
  usageFile w = Protected reading code ->
  snd (incrementUsageCount w) = inl (ErrnoException code)
  /\ usageFile (fst (incrementUsageCount w)) = usageFile w.
Proof.
  intro H. unfold incrementUsageCount, bind.
  rewrite getUsageCount_cases, H. unfold decoded, contents, writeFile.
  destruct reading as [rcode|[|[|c]]]; simpl;
    try destruct (rcode =? ENOENT)%string; simpl; rewrite ?H;
    (split; [reflexivity|]); simpl; rewrite ?H; reflexivity.
Qed.

Lemma increment_of_protected_file_throws_witness :
  snd (incrementUsageCount directory_world) = inl (ErrnoException "EISDIR")
  /\ usageFile (fst (incrementUsageCount directory_world))
     = usageFile directory_world.
Proof.
  apply (increment_of_protected_file_throws directory_world
           (inl "EISDIR"%string) "EISDIR").
  reflexivity.
Defined.

(** ** Sequences of requests *)

Lemma serve_answers (rs : list Request) :
  forall (c : Z) (w : World),
    usageFile w = holds c ->
    (- Js.two_53 <= c)%Z ->
    (c + Z.of_nat (posts rs) <= Js.two_53)%Z ->
    serve rs w
    = (with_file (holds (c + Z.of_nat (posts rs))) w, inr (answers c rs)).
Proof.
  induction rs as [|r rs IH]; intros c w H Hlo Hhi.
  - unfold posts; simpl. unfold ret, with_file. rewrite Z.add_0_r, <- H.
    destruct w; reflexivity.
  - cbn [serve]. unfold bind at 1. destruct r; cbn [handle].
    + rewrite (getUsageCount_holds c w H). unfold bind at 1.
      rewrite (IH c w H Hlo Hhi). reflexivity.
    + assert (Hp : Z.of_nat (posts (PostUsageIncrement :: rs))
                   = (1 + Z.of_nat (posts rs))%Z)
        by (unfold posts; cbn [filter List.length]; lia).
      rewrite Hp in *.
      rewrite (increment_once c w H) by lia. unfold bind at 1.
      assert (H1 : (- Js.two_53 <= c + 1)%Z) by lia.
      assert (H2 : (c + 1 + Z.of_nat (posts rs) <= Js.two_53)%Z) by lia.
      rewrite (IH (c + 1)%Z (with_file (holds (c + 1)) w) eq_refl H1 H2).
      unfold ret, with_file. cbn [console answers].
      replace (c + 1 + Z.of_nat (posts rs))%Z
        with (c + (1 + Z.of_nat (posts rs)))%Z by lia.
      reflexivity.
Qed.

Lemma answers_bounds (rs : list Request) :
  forall c : Z,
    nondecreasing_from c (answers c rs)
    /\ Forall (fun x => (c <= x <= c + Z.of_nat (posts rs))%Z) (answers c rs)
    /\ List.length (answers c rs) = List.length rs.
Proof.
  induction rs as [|r rs IH]; intro c.
  - repeat split. constructor.
  - destruct r; simpl.
    + destruct (IH c) as (Hn & Hf & Hl).
      split; [split; [lia|exact Hn]|].
      split; [|congruence].
      constructor; [unfold posts in *; simpl; lia|exact Hf].
    + destruct (IH (c + 1)%Z) as (Hn & Hf & Hl).
      split; [split; [lia|exact Hn]|].
      split; [|congruence].
      constructor.
      * unfold posts; simpl. lia.
      * eapply Forall_impl; [|exact Hf].
        intros x Hx. unfold posts in *; simpl in *. lia.
Qed.

(** X15: from a file that can be written and holds the integer count [c],
    with [-2^53 <= c] and [c] plus the number of increments at most 2^53,
    requests served one after the other all succeed: every read is answered
    with the current count and every increment with the count plus one, and
    at the end the file holds [c] plus the number of increments. *)
Theorem serve_counts_increments (rs : list Request) (c : Z) (w : World) :
  usageFile w = holds c ->
  (- Js.two_53 <= c)%Z ->
  (c + Z.of_nat (posts rs) <= Js.two_53)%Z ->
  serve rs w
  = (with_file (holds (c + Z.of_nat (posts rs))) w, inr (answers c rs)).
Proof. apply serve_answers. Qed.

Lemma serve_counts_increments_witness :
  serve [GetUsage; PostUsageIncrement; PostUsageIncrement; GetUsage]
        (with_file (holds 7) fresh_world)
  = (with_file (holds 9) fresh_world, inr [7; 8; 9; 9]%Z).
Proof.
  apply (serve_counts_increments
           [GetUsage; PostUsageIncrement; PostUsageIncrement; GetUsage] 7
           (with_file (holds 7) fresh_world)).
  - reflexivity.
  - unfold Js.two_53. lia.
  - unfold Js.two_53, posts. simpl. lia.
Defined.

(** X16: under the same conditions the counts answered never go down:
    there is one answer per request, each at least [c] and at most [c] plus
    the number of increments, and each at least the answer before it. *)
Theorem served_counts_never_go_down (rs : list Request) (c : Z) (w : World) :
  usageFile w = holds c ->
  (- Js.two_53 <= c)%Z ->
  (c + Z.of_nat (posts rs) <= Js.two_53)%Z ->
  exists (w' : World) (cs : list Z),
    serve rs w = (w', inr cs)
    /\ List.length cs = List.length rs
    /\ nondecreasing_from c cs
    /\ Forall (fun x => (c <= x <= c + Z.of_nat (posts rs))%Z) cs.
Proof.
  intros H Hlo Hhi.
  destruct (answers_bounds rs c) as (Hn & Hf & Hl).
  exists (with_file (holds (c + Z.of_nat (posts rs))) w), (answers c rs).
  split; [apply serve_answers; assumption|].
  split; [exact Hl|]. split; [exact Hn|exact Hf].
Qed.

Lemma served_counts_never_go_down_witness :
  exists (w' : World) (cs : list Z),
    serve [PostUsageIncrement; GetUsage; PostUsageIncrement]
          (with_file (holds 7) fresh_world) = (w', inr cs)
    /\ List.length cs = 3%nat
    /\ nondecreasing_from 7 cs
    /\ Forall (fun x => (7 <= x <= 7 + 2)%Z) cs.
Proof.
  apply (served_counts_never_go_down
           [PostUsageIncrement; GetUsage; PostUsageIncrement] 7
           (with_file (holds 7) fresh_world)).
  - reflexivity.
  - unfold Js.two_53. lia.
  - unfold Js.two_53, posts. simpl. lia.
Defined.

(** X17: once the file is a record with a count it stays one under any
    sequence of requests, and nothing is sent to [console.error]. *)
Theorem well_formed_file_is_kept (rs : list Request) (w : World) :
  well_formed (usageFile w) ->
  well_formed (usageFile (fst (serve rs w)))
  /\ console (fst (serve rs w)) = console w.
Proof.
  revert w. induction rs as [|r rs IH]; intros w Hw.
  - split; [exact Hw|reflexivity].
  - destruct Hw as [c Hc].
    assert (Hh : exists w1 c1, handle r w = (w1, inr c1)
                               /\ well_formed (usageFile w1)
                               /\ console w1 = console w).
    { destruct r; simpl.
      - exists w, c. split; [apply getUsageCount_holds, Hc|].
        split; [exists c; exact Hc|reflexivity].
      - do 2 eexists. split; [apply increment_holds, Hc|].
        split; [eexists; reflexivity|reflexivity]. }
    destruct Hh as (w1 & c1 & Hh & Hw1 & Hcon).
    destruct (IH w1 Hw1) as [Hwf Hcons].
    cbn [serve]. unfold bind. rewrite Hh.
    destruct (serve rs w1) as [w2 [e|cs]]; unfold ret; simpl in *.
    + split; [exact Hwf|]. rewrite Hcons. exact Hcon.
    + split; [exact Hwf|]. rewrite Hcons. exact Hcon.
Qed.

Lemma well_formed_file_is_kept_witness :
  well_formed
    (usageFile (fst (serve [GetUsage; PostUsageIncrement; GetUsage]
                           (with_file (holds 7) fresh_world))))
  /\ console (fst (serve [GetUsage; PostUsageIncrement; GetUsage]
                         (with_file (holds 7) fresh_world)))
     = console (with_file (holds 7) fresh_world).
Proof.
  apply (well_formed_file_is_kept [GetUsage; PostUsageIncrement; GetUsage]
           (with_file (holds 7) fresh_world)).
  exists 7%Z. reflexivity.
Defined.
